(** * The scoring adapter of the real-time web service notebook

    Source: [samples/realtime/realtimewebservices.ipynb].

    The notebook trains a pipeline, saves it together with the schema of the
    training frame, and defines the two entry points [init] and [run] of the
    web service.  Everything those cells do is a call into a library
    (pyspark, azuremlutilities, json); the notebook's own logic is the order
    of the calls, the module-level variables they go through, and what is
    returned.  The libraries are taken as an interface ([Host]); the cells
    are embedded over it as computations on the state of the Python process. *)

From Stdlib Require Import ZArith Ascii String List Floats Uint63.
From stdpp Require Import base option list strings gmap.

Open Scope string_scope.

(** ** Python values and exceptions *)

(** What [json.loads] can return and what a cell of a collected [Row] holds.
    Python's [float] is an IEEE 754 binary64. *)
#[warnings="-register-all"]
Inductive pyval : Type :=
| PNone
| PBool (b : bool)
| PInt (z : Z)
| PFloat (f : float)
| PStr (s : string)
| PList (l : list pyval)
| PDict (d : list (string * pyval)).

(** The exceptions the cells can meet.  [NameError] is what reading an
    unbound module-level name raises and [IndexError] what [[0]] raises on an
    empty list; a library call may raise anything. *)
Inductive exn : Type :=
| NameError (name : string)
| IndexError
| ValueError (msg : string)
| TypeError (msg : string)
| LibraryError (cls msg : string).

(** Outcome of evaluating a Python expression or statement. *)
Inductive result (A : Type) : Type :=
| Ret (a : A)
| Raise (e : exn).
Arguments Ret {A} a.
Arguments Raise {A} e.

(** A collected [pyspark.sql.Row]: field names with their values, in column
    order. *)
Definition Row : Type := list (string * pyval).

(** [row[item]] for a field name: the first field of that name;
    pyspark raises [ValueError(item)] when there is none. *)
Fixpoint Row_getitem (r : Row) (item : string) : result pyval :=
  match r with
  | [] => Raise (ValueError item)
  | (k, v) :: r' => if String.eqb k item then Ret v else Row_getitem r' item
  end.

(** [l[0]] on a Python list. *)
Definition getitem0 {A : Type} (l : list A) : result A :=
  match l with
  | [] => Raise IndexError
  | x :: _ => Ret x
  end.

(** ** The libraries the notebook calls *)

(** The kinds of object the library calls take and give back. *)
Class Objects : Type := {
  (** what is stored under a path of the working directory *)
  file : Type;
  PipelineModel : Type;
  StructType : Type;
  RDD : Type;
  DataFrame : Type
}.

Class Host `{Objects} : Type := {
  (** [PipelineModel.load(path)], given what is stored at [path] *)
  PipelineModel_load : option file -> result PipelineModel;
  (** [model.write().overwrite().save(path)]: what gets stored at [path] *)
  PipelineModel_save : PipelineModel -> result file;
  (** [azuremlutilities.loadSchema(path)] *)
  loadSchema : option file -> result StructType;
  (** [azuremlutilities.saveSchema(df, path)] *)
  saveSchema : DataFrame -> result file;
  (** [json.loads(s)] *)
  json_loads : string -> result pyval;
  (** [sc.parallelize(c)] *)
  parallelize : pyval -> result RDD;
  (** [spark.createDataFrame(data, schema, samplingRatio, verifySchema)] *)
  createDataFrame : RDD -> StructType -> option float -> bool -> result DataFrame;
  (** [model.transform(df)] *)
  transform : PipelineModel -> DataFrame -> result DataFrame;
  (** [df.collect()] *)
  collect : DataFrame -> result (list Row)
}.

(** ** The Python process *)

(** The calls out of the notebook, as the log of a process records them. *)
Inductive call : Type :=
| Load_model (path : string)
| Save_model (path : string)
| Load_schema (path : string)
| Save_schema (path : string)
| Json_loads (s : string)
| Parallelize (c : pyval)
| CreateDataFrame (samplingRatio : option float) (verifySchema : bool)
| Transform
| Collect
| Print (s : string).

Section Process.
Context `{O : Objects}.

(** The module-level names the notebook's cells bind.  [None] / [false] is
    an unbound name.  [spark] and [sc] are bound by the Spark kernel before
    any cell runs and are not tracked. *)
Record globals : Type := Globals {
  df2 : option DataFrame;
  pipeline : option PipelineModel;
  azuremlutilities : bool;
  inputSchema : option StructType
}.

Record process : Type := Process {
  files : gmap string file;
  vars : globals;
  calls : list call
}.

(** A statement or expression: runs in a process, returns or raises, and
    leaves the process as it is at that point. *)
Definition M (A : Type) : Type := process -> result A * process.

Definition ret {A : Type} (a : A) : M A := fun σ => (Ret a, σ).

Definition bind {A B : Type} (m : M A) (k : A -> M B) : M B :=
  fun σ => match m σ with
           | (Ret a, σ') => k a σ'
           | (Raise e, σ') => (Raise e, σ')
           end.

End Process.

Notation "x <~ m ;; k" := (bind m (fun x => k))
  (at level 100, m at next level, right associativity,
   format "x  <~  m  ;;  '//' k").
Notation "m ;;; k" := (bind m (fun _ => k))
  (at level 100, right associativity, format "m  ;;;  '//' k").

Section Cells.
Context `{O : Objects} {H : Host}.

(** A call out of the notebook: logged, then its outcome returned or
    raised. *)
Definition lib {A : Type} (c : call) (r : result A) : M A :=
  fun σ => (r, Process (files σ) (vars σ) (calls σ ++ [c])).

(** A pure expression. *)
Definition eval {A : Type} (r : result A) : M A := fun σ => (r, σ).

(** Reading a module-level name. *)
Definition load_global {A : Type} (name : string) (get : globals -> option A) : M A :=
  fun σ => match get (vars σ) with
           | Some a => (Ret a, σ)
           | None => (Raise (NameError name), σ)
           end.

Definition load_module (name : string) (get : globals -> bool) : M unit :=
  fun σ => if get (vars σ) then (Ret tt, σ) else (Raise (NameError name), σ).

Definition store_global (upd : globals -> globals) : M unit :=
  fun σ => (Ret tt, Process (files σ) (upd (vars σ)) (calls σ)).

Definition set_pipeline (p : PipelineModel) (g : globals) : globals :=
  Globals (df2 g) (Some p) (azuremlutilities g) (inputSchema g).

Definition set_inputSchema (s : StructType) (g : globals) : globals :=
  Globals (df2 g) (pipeline g) (azuremlutilities g) (Some s).

Definition set_azuremlutilities (g : globals) : globals :=
  Globals (df2 g) (pipeline g) true (inputSchema g).

Definition write_file (path : string) (f : file) : M unit :=
  fun σ => (Ret tt, Process (<[path := f]> (files σ)) (vars σ) (calls σ)).

(** *** The library calls, made in a process *)

Definition do_PipelineModel_load (path : string) : M PipelineModel :=
  fun σ => lib (Load_model path) (PipelineModel_load (files σ !! path)) σ.

Definition do_PipelineModel_save (model : PipelineModel) (path : string) : M unit :=
  f <~ lib (Save_model path) (PipelineModel_save model) ;;
  write_file path f.

Definition do_loadSchema (path : string) : M StructType :=
  fun σ => lib (Load_schema path) (loadSchema (files σ !! path)) σ.

Definition do_saveSchema (df : DataFrame) (path : string) : M unit :=
  f <~ lib (Save_schema path) (saveSchema df) ;;
  write_file path f.

Definition do_json_loads (s : string) : M pyval :=
  lib (Json_loads s) (json_loads s).

Definition do_parallelize (c : pyval) : M RDD :=
  lib (Parallelize c) (parallelize c).

Definition do_createDataFrame (data : RDD) (schema : StructType)
    (samplingRatio : option float) (verifySchema : bool) : M DataFrame :=
  lib (CreateDataFrame samplingRatio verifySchema)
      (createDataFrame data schema samplingRatio verifySchema).

Definition do_transform (model : PipelineModel) (df : DataFrame) : M DataFrame :=
  lib Transform (transform model df).

Definition do_collect (df : DataFrame) : M (list Row) :=
  lib Collect (collect df).

Definition do_print (s : string) : M unit :=
  lib (Print s) (Ret tt).

(** *** Cell "Save model"
<<
    pipeline.write().overwrite().save("housing.model")
    print "Model saved"
>> *)
Definition save_model : M unit :=
  model <~ load_global "pipeline" pipeline ;;
  do_PipelineModel_save model "housing.model" ;;;
  do_print "Model saved".

(** *** Cell "Save schema"
<<
    from azuremlcli import azuremlutilities
    reload(azuremlutilities)
    azuremlutilities.saveSchema(df2, "webserviceschema.json")
>> *)
Definition save_schema : M unit :=
  store_global set_azuremlutilities ;;;
  load_module "azuremlutilities" azuremlutilities ;;;
  df <~ load_global "df2" df2 ;;
  do_saveSchema df "webserviceschema.json".

(** *** [init]
<<
    def init():
        from pyspark.ml import PipelineModel
        global pipeline
        pipeline = PipelineModel.load("housing.model")
        global inputSchema
        inputSchema=azuremlutilities.loadSchema("webserviceschema.json")
>>
    [pipeline] is assigned as soon as the model is loaded; the name
    [azuremlutilities] is read only after that. *)
Definition init : M unit :=
  model <~ do_PipelineModel_load "housing.model" ;;
  store_global (set_pipeline model) ;;;
  load_module "azuremlutilities" azuremlutilities ;;;
  schema <~ do_loadSchema "webserviceschema.json" ;;
  store_global (set_inputSchema schema).

(** *** [run]
<<
    def run(inputString):
        import json
        from pyspark.ml import PipelineModel
        input=json.loads(inputString)
        inputRDD=sc.parallelize(input)
        inputDF=spark.createDataFrame(inputRDD,inputSchema, None, False)
        score=pipeline.transform(inputDF)
        return score.collect()[0]['label']
>>
    The two variables are read where the statements mention them:
    [inputSchema] while the arguments of [createDataFrame] are evaluated,
    [pipeline] at the start of the next statement. *)
Definition run (inputString : string) : M pyval :=
  input <~ do_json_loads inputString ;;
  inputRDD <~ do_parallelize input ;;
  schema <~ load_global "inputSchema" inputSchema ;;
  inputDF <~ do_createDataFrame inputRDD schema None false ;;
  model <~ load_global "pipeline" pipeline ;;
  score <~ do_transform model inputDF ;;
  rows <~ do_collect score ;;
  row <~ eval (getitem0 rows) ;;
  eval (Row_getitem row "label").

End Cells.

(** ** A reference host

    A small, executable instance of [Host], used to run the cells on concrete
    inputs: files are what the save calls stored, a schema is a list of typed
    column names, a frame is a list of rows, a pipeline is the label source of
    its formula with a one-leaf regressor, and [json_loads] reads the JSON
    fragment made of arrays, numbers without exponent and the three literals
    (anything else is refused as malformed).  [createDataFrame] checks the
    rows against the schema exactly when [verifySchema] is set. *)
Module RefHost.

Inductive dtype : Type := IntegerType | DoubleType.

Definition schema : Type := list (string * dtype).

Record stump : Type := Stump { label_source : string; leaf : float }.

Inductive stored : Type :=
| StoredModel (m : stump)
| StoredSchema (s : schema)
| StoredText (s : string).

Record frame : Type := Frame { f_schema : schema; f_rows : list Row }.

(** *** Reading JSON *)

Definition is_ws (c : ascii) : bool :=
  match c with
  | " "%char | "009"%char | "010"%char | "013"%char => true
  | _ => false
  end.

Fixpoint skip_ws (s : list ascii) : list ascii :=
  match s with
  | c :: s' => if is_ws c then skip_ws s' else s
  | [] => []
  end.

Definition digit_of (c : ascii) : option Z :=
  match c with
  | "0"%char => Some 0%Z | "1"%char => Some 1%Z | "2"%char => Some 2%Z
  | "3"%char => Some 3%Z | "4"%char => Some 4%Z | "5"%char => Some 5%Z
  | "6"%char => Some 6%Z | "7"%char => Some 7%Z | "8"%char => Some 8%Z
  | "9"%char => Some 9%Z
  | _ => None
  end.

Fixpoint take_digits (s : list ascii) : list Z * list ascii :=
  match s with
  | c :: s' =>
      match digit_of c with
      | Some d => let '(ds, rest) := take_digits s' in (d :: ds, rest)
      | None => ([], s)
      end
  | [] => ([], [])
  end.

Definition digits_value (ds : list Z) : Z :=
  fold_left (fun acc d => (10 * acc + d)%Z) ds 0%Z.

(** The double nearest to [m / 10^k]: exact operands, one rounded division. *)
Definition decimal_to_float (m : Z) (k : nat) : option float :=
  if (Z.ltb m (2 ^ 53) && Nat.leb k 15)%bool
  then Some (PrimFloat.div (PrimFloat.of_uint63 (Uint63.of_Z m))
                           (PrimFloat.of_uint63 (Uint63.of_Z (10 ^ Z.of_nat k))))
  else None.

Definition int_to_float (z : Z) : float :=
  if Z.ltb z 0 then PrimFloat.opp (PrimFloat.of_uint63 (Uint63.of_Z (- z)))
  else PrimFloat.of_uint63 (Uint63.of_Z z).

Definition parse_number (s : list ascii) : option (pyval * list ascii) :=
  let '(neg, s1) := match s with
                    | "-"%char :: t => (true, t)
                    | _ => (false, s)
                    end in
  let '(ip, s2) := take_digits s1 in
  match ip with
  | [] => None
  | 0%Z :: _ :: _ => None
  | _ =>
      match s2 with
      | "."%char :: s3 =>
          let '(fp, s4) := take_digits s3 in
          match fp with
          | [] => None
          | _ =>
              match decimal_to_float (digits_value (ip ++ fp)) (length fp) with
              | Some x => Some (PFloat (if neg then PrimFloat.opp x else x), s4)
              | None => None
              end
          end
      | _ => Some (PInt (if neg then - digits_value ip else digits_value ip)%Z, s2)
      end
  end.

Fixpoint parse_value (fuel : nat) (s : list ascii) : option (pyval * list ascii) :=
  match fuel with
  | O => None
  | S fuel' =>
      let parse_items :=
        fix parse_items (n : nat) (s : list ascii) : option (list pyval * list ascii) :=
          match n with
          | O => None
          | S n' =>
              match parse_value fuel' s with
              | Some (v, rest) =>
                  match skip_ws rest with
                  | ","%char :: rest' =>
                      match parse_items n' rest' with
                      | Some (vs, rest'') => Some (v :: vs, rest'')
                      | None => None
                      end
                  | "]"%char :: rest' => Some ([v], rest')
                  | _ => None
                  end
              | None => None
              end
          end in
      match skip_ws s with
      | "["%char :: s' =>
          match skip_ws s' with
          | "]"%char :: rest => Some (PList [], rest)
          | _ =>
              match parse_items fuel' s' with
              | Some (vs, rest) => Some (PList vs, rest)
              | None => None
              end
          end
      | "t"%char :: "r"%char :: "u"%char :: "e"%char :: rest => Some (PBool true, rest)
      | "f"%char :: "a"%char :: "l"%char :: "s"%char :: "e"%char :: rest =>
          Some (PBool false, rest)
      | "n"%char :: "u"%char :: "l"%char :: "l"%char :: rest => Some (PNone, rest)
      | s' => parse_number s'
      end
  end.

Definition loads (s : string) : result pyval :=
  let cs := list_ascii_of_string s in
  match parse_value (S (length cs)) cs with
  | Some (v, rest) =>
      match skip_ws rest with
      | [] => Ret v
      | _ => Raise (ValueError "Extra data")
      end
  | None => Raise (ValueError "No JSON object could be decoded")
  end.

(** *** The engine *)

Definition rparallelize (c : pyval) : result (list pyval) :=
  match c with
  | PList l => Ret l
  | _ => Raise (TypeError "object is not iterable")
  end.

Definition cell_has_type (t : dtype) (v : pyval) : bool :=
  match t, v with
  | IntegerType, PInt _ => true
  | DoubleType, PFloat _ => true
  | _, _ => false
  end.

(** [_verify_type] on one row: its length, then each value. *)
Fixpoint verify_cells (s : schema) (cells : list pyval) : bool :=
  match s, cells with
  | [], [] => true
  | (_, t) :: s', v :: cells' => cell_has_type t v && verify_cells s' cells'
  | _, _ => false
  end.

(** Column names reattached to the values of one row, by position. *)
Fixpoint name_cells (s : schema) (cells : list pyval) : Row :=
  match s, cells with
  | (n, _) :: s', v :: cells' => (n, v) :: name_cells s' cells'
  | _, _ => []
  end.

Fixpoint build_rows (s : schema) (verifySchema : bool) (data : list pyval)
  : result (list Row) :=
  match data with
  | [] => Ret []
  | PList cells :: data' =>
      if (verifySchema && negb (verify_cells s cells))%bool
      then Raise (ValueError "row does not match the schema")
      else match build_rows s verifySchema data' with
           | Ret rows => Ret (name_cells s cells :: rows)
           | Raise e => Raise e
           end
  | _ :: _ => Raise (TypeError "StructType can not accept object")
  end.

Definition rcreateDataFrame (data : list pyval) (s : schema)
    (samplingRatio : option float) (verifySchema : bool) : result frame :=
  match build_rows s verifySchema data with
  | Ret rows => Ret (Frame s rows)
  | Raise e => Raise e
  end.

Definition row_lookup (r : Row) (name : string) : option pyval :=
  match Row_getitem r name with
  | Ret v => Some v
  | Raise _ => None
  end.

(** One row through the fitted formula and the regressor: the label is the
    label source cast to double when the row has it, the prediction is the
    leaf. *)
Definition score_row (m : stump) (r : Row) : result Row :=
  match row_lookup r (label_source m) with
  | Some (PFloat x) => Ret (r ++ [("label", PFloat x); ("prediction", PFloat (leaf m))])%list
  | Some (PInt z) =>
      Ret (r ++ [("label", PFloat (int_to_float z)); ("prediction", PFloat (leaf m))])%list
  | Some _ => Raise (LibraryError "Py4JJavaError" "label is not numeric")
  | None => Ret (r ++ [("prediction", PFloat (leaf m))])%list
  end.

Fixpoint score_rows (m : stump) (rows : list Row) : result (list Row) :=
  match rows with
  | [] => Ret []
  | r :: rows' =>
      match score_row m r, score_rows m rows' with
      | Ret r', Ret out => Ret (r' :: out)
      | Raise e, _ => Raise e
      | _, Raise e => Raise e
      end
  end.

Definition rtransform (m : stump) (df : frame) : result frame :=
  match score_rows m (f_rows df) with
  | Ret rows => Ret (Frame (f_schema df ++ [("label", DoubleType); ("prediction", DoubleType)])%list rows)
  | Raise e => Raise e
  end.

Definition load_model (f : option stored) : result stump :=
  match f with
  | Some (StoredModel m) => Ret m
  | Some _ => Raise (LibraryError "Py4JJavaError" "not a saved pipeline")
  | None => Raise (LibraryError "Py4JJavaError" "path does not exist")
  end.

Definition load_schema (f : option stored) : result schema :=
  match f with
  | Some (StoredSchema s) => Ret s
  | Some _ => Raise (ValueError "not a saved schema")
  | None => Raise (LibraryError "IOError" "No such file or directory")
  end.

#[export] Instance objects : Objects := {|
  file := stored;
  PipelineModel := stump;
  StructType := schema;
  RDD := list pyval;
  DataFrame := frame
|}.

#[export] Instance host : Host := {|
  PipelineModel_load := load_model;
  PipelineModel_save := fun m => Ret (StoredModel m);
  loadSchema := load_schema;
  saveSchema := fun df => Ret (StoredSchema (f_schema df));
  json_loads := loads;
  parallelize := rparallelize;
  createDataFrame := rcreateDataFrame;
  transform := rtransform;
  collect := fun df => Ret (f_rows df)
|}.

(** The housing data of the notebook: twelve features and the target. *)
Definition housing_schema : schema :=
  [("CRIM", DoubleType); ("ZN", DoubleType); ("INDUS", DoubleType);
   ("CHAS", IntegerType); ("NOX", DoubleType); ("RM", DoubleType);
   ("AGE", DoubleType); ("DIS", DoubleType); ("RAD", IntegerType);
   ("TAX", IntegerType); ("PTRATIO", DoubleType); ("LSTAT", DoubleType);
   ("MEDV", DoubleType)].

Definition housing_model : stump := Stump "MEDV" 22.5%float.

Definition no_globals : globals := Globals None None false None.

(** A fresh service process next to the two saved artifacts. *)
Definition deployed : process :=
  Process (<["webserviceschema.json" := StoredSchema housing_schema]>
             (<["housing.model" := StoredModel housing_model]> ∅))
          (Globals None None true None) [].

(** The same process after a successful [init]. *)
Definition serving : process :=
  Process (files deployed)
          (Globals None (Some housing_model) true (Some housing_schema)) [].

End RefHost.

(** The input of the notebook's test cell. *)
Definition sample_input : string :=
  "[[0.00632,18.0,2.31,0,0.538,6.575,65.2,4.09,1,296,15.3,4.98,24.0]]".

(** The same row followed by a second one. *)
Definition two_rows : string :=
  "[[0.00632,18.0,2.31,0,0.538,6.575,65.2,4.09,1,296,15.3,4.98,24.0], [0.02731,0.0,7.07,0,0.469,6.421,78.9,4.9671,2,242,17.8,9.14,21.6]]".

(** The sample row with one value too many. *)
Definition wide_row : string :=
  "[[0.00632,18.0,2.31,0,0.538,6.575,65.2,4.09,1,296,15.3,4.98,24.0,396.9]]".

Module Runs.
Import RefHost.

(** What the reference engine collects for an input string. *)
Definition collected (m : stump) (s : schema) (inputString : string) : list Row :=
  match loads inputString with
  | Ret input =>
      match rparallelize input with
      | Ret data =>
          match rcreateDataFrame data s None false with
          | Ret df =>
              match rtransform m df with
              | Ret score => f_rows score
              | Raise _ => []
              end
          | Raise _ => []
          end
      | Raise _ => []
      end
  | Raise _ => []
  end.

Definition two_rows_collected : list Row :=
  Eval vm_compute in collected housing_model housing_schema two_rows.


Definition parsed_or_none (inputString : string) : pyval :=
  match loads inputString with
  | Ret v => v
  | Raise _ => PNone
  end.

Definition sample_parsed : pyval := Eval vm_compute in parsed_or_none sample_input.

Definition wide_row_parsed : pyval := Eval vm_compute in parsed_or_none wide_row.

Definition first_cells (input : pyval) : list pyval :=
  match input with
  | PList (PList cells :: _) => cells
  | _ => []
  end.

Definition sample_cells : list pyval := Eval vm_compute in first_cells sample_parsed.

Definition wide_cells : list pyval := Eval vm_compute in first_cells wide_row_parsed.

(** A process that never ran a cell, in an empty directory. *)
Definition fresh : process := Process ∅ no_globals [].

(** A service process that finds the model but not the schema. *)
Definition schema_missing : process :=
  Process (<["housing.model" := StoredModel housing_model]> ∅)
          (Globals None None true None) [].

(** The notebook after the training cell, before anything is saved. *)
Definition trained : process :=
  Process ∅ (Globals (Some (Frame housing_schema [])) (Some housing_model) false None) [].

(** The deployed service next to a script the cells never read. *)
Definition deployed_with_script : process :=
  Process (<["testing.py" := StoredText "def init(): ..."]> (files deployed))
          (vars deployed) [].

(** A process that finds both artifacts and has run no cell: the saved
    script on its own. *)
Definition script_only : process := Process (files deployed) no_globals [].

End Runs.

(** ** Stages of a scoring call *)

Section Stages.
Context `{O : Objects} {H : Host}.

(** The input string went through [json.loads] and [sc.parallelize]. *)
Definition parsed (inputString : string) (inputRDD : RDD) : Prop :=
  ∃ input, json_loads inputString = Ret input ∧ parallelize input = Ret inputRDD.

(** ... and through [spark.createDataFrame] with the loaded schema. *)
Definition framed (σ : process) (inputString : string) (inputDF : DataFrame) : Prop :=
  ∃ inputRDD schema,
    parsed inputString inputRDD ∧
    inputSchema (vars σ) = Some schema ∧
    createDataFrame inputRDD schema None false = Ret inputDF.

(** ... and through the loaded pipeline, collected as [rows]. *)
Definition scored (σ : process) (inputString : string) (rows : list Row) : Prop :=
  ∃ inputDF model score,
    framed σ inputString inputDF ∧
    pipeline (vars σ) = Some model ∧
    transform model inputDF = Ret score ∧
    collect score = Ret rows.

(** Where a scoring call can fail, and with what. *)
Inductive run_fault (σ : process) (inputString : string) : exn -> Prop :=
| fault_json_loads e :
    json_loads inputString = Raise e ->
    run_fault σ inputString e
| fault_parallelize input e :
    json_loads inputString = Ret input ->
    parallelize input = Raise e ->
    run_fault σ inputString e
| fault_inputSchema_unbound inputRDD :
    parsed inputString inputRDD ->
    inputSchema (vars σ) = None ->
    run_fault σ inputString (NameError "inputSchema")
| fault_createDataFrame inputRDD schema e :
    parsed inputString inputRDD ->
    inputSchema (vars σ) = Some schema ->
    createDataFrame inputRDD schema None false = Raise e ->
    run_fault σ inputString e
| fault_pipeline_unbound inputDF :
    framed σ inputString inputDF ->
    pipeline (vars σ) = None ->
    run_fault σ inputString (NameError "pipeline")
| fault_transform inputDF model e :
    framed σ inputString inputDF ->
    pipeline (vars σ) = Some model ->
    transform model inputDF = Raise e ->
    run_fault σ inputString e
| fault_collect inputDF model score e :
    framed σ inputString inputDF ->
    pipeline (vars σ) = Some model ->
    transform model inputDF = Ret score ->
    collect score = Raise e ->
    run_fault σ inputString e
| fault_empty_result :
    scored σ inputString [] ->
    run_fault σ inputString IndexError
| fault_label row rows e :
    scored σ inputString (row :: rows) ->
    Row_getitem row "label" = Raise e ->
    run_fault σ inputString e.

(** Where [init] can fail, and with what. *)
Inductive init_fault (σ : process) : exn -> Prop :=
| fault_model_load e :
    PipelineModel_load (files σ !! "housing.model") = Raise e ->
    init_fault σ e
| fault_module_unbound model :
    PipelineModel_load (files σ !! "housing.model") = Ret model ->
    azuremlutilities (vars σ) = false ->
    init_fault σ (NameError "azuremlutilities")
| fault_schema_load model e :
    PipelineModel_load (files σ !! "housing.model") = Ret model ->
    azuremlutilities (vars σ) = true ->
    loadSchema (files σ !! "webserviceschema.json") = Raise e ->
    init_fault σ e.

(** The load calls in a log. *)
Definition is_load (c : call) : bool :=
  match c with
  | Load_model _ | Load_schema _ => true
  | _ => false
  end.

(** The calls [run] makes: no load among them, the frame construction
    unverified. *)
Definition scoring_call (c : call) : Prop :=
  match c with
  | Json_loads _ | Parallelize _ | Transform | Collect => True
  | CreateDataFrame samplingRatio verifySchema =>
      samplingRatio = None ∧ verifySchema = false
  | _ => False
  end.

(** Serving: one scoring call per request, in order; a fault ends only the
    call it happened in. *)
Fixpoint serve (requests : list string) (σ : process) : process :=
  match requests with
  | [] => σ
  | inputString :: requests' => serve requests' (snd (run inputString σ))
  end.

(** The notebook's test cell, for any input: [init()] then [run(s)]. *)
Definition init_then_run (inputString : string) : M pyval :=
  init ;;; run inputString.

(** *** Three readings the cells are checked against *)

(** A failing [init] binds neither variable. *)
Definition init_is_atomic : Prop :=
  ∀ σ e, fst (init σ) = Raise e ->
    (pipeline (vars σ) = None -> pipeline (vars (snd (init σ))) = None)
    ∧ (inputSchema (vars σ) = None -> inputSchema (vars (snd (init σ))) = None).



(** Before any [init], [run] raises a [NameError]. *)
Definition run_before_init_is_NameError : Prop :=
  ∀ σ inputString,
    pipeline (vars σ) = None ->
    inputSchema (vars σ) = None ->
    ∃ name, fst (run inputString σ) = Raise (NameError name).


(** *** The cells one after the other *)


(** The two save cells in the notebook's order and in the other order. *)
Definition save_model_first : M unit := save_model ;;; save_schema.
Definition save_schema_first : M unit := save_schema ;;; save_model.

(** The field names of a collected row. *)
Definition fields (r : Row) : list string := map fst r.

End Stages.


(** ** Properties of the cells *)

(** Unfold the cells down to the library calls they make. *)
Ltac open_cells :=
  cbv [init_then_run init run save_model save_schema bind ret lib eval
       load_global load_module store_global write_file getitem0
       do_PipelineModel_load do_PipelineModel_save do_loadSchema do_saveSchema
       do_json_loads do_parallelize do_createDataFrame do_transform do_collect
       do_print set_pipeline set_inputSchema set_azuremlutilities] in *;
  cbn [fst snd files vars calls df2 pipeline azuremlutilities inputSchema] in *.

(** Case on the outcome of the next call (the innermost scrutinee). *)
Ltac step :=
  match goal with
  | |- context [match ?x with _ => _ end] =>
      lazymatch x with
      | context [match _ with _ => _ end] => fail
      | _ => destruct x eqn:?
      end
  end;
  cbn [fst snd files vars calls df2 pipeline azuremlutilities inputSchema] in *.

(** Discharge a stage from the equations at hand. *)
Ltac reach :=
  unfold scored, framed, parsed;
  repeat first [ eassumption | split | eexists ].

Section Facts.
Context `{O : Objects} {H : Host}.

Lemma run_raise_fault (σ : process) (inputString : string) (e : exn) :
  fst (run inputString σ) = Raise e -> run_fault σ inputString e.
Proof.
  open_cells.
  repeat step; intros E; try discriminate E; try (injection E as <-).
  all: try solve [ eauto using run_fault ].
  all: solve [ econstructor; solve [ reach ] ].
Qed.

Lemma run_fault_raise (σ : process) (inputString : string) (e : exn) :
  run_fault σ inputString e -> fst (run inputString σ) = Raise e.
Proof.
  destruct 1; unfold scored, framed, parsed in *;
    repeat match goal with
           | E : ∃ _, _ |- _ => destruct E
           | E : _ ∧ _ |- _ => destruct E
           end;
    open_cells;
    repeat match goal with
           | E : _ = _ |- _ =>
               rewrite E; clear E;
               cbn [fst snd files vars calls df2 pipeline azuremlutilities inputSchema]
           end; reflexivity.
Qed.

Lemma run_ret_scored (σ : process) (inputString : string) (v : pyval) :
  fst (run inputString σ) = Ret v <->
  ∃ row rows, scored σ inputString (row :: rows) ∧ Row_getitem row "label" = Ret v.
Proof.
  split.
  - open_cells. repeat step; intros E; try discriminate E.
    eexists _, _. split; [reach | assumption].
  - unfold scored, framed, parsed.
    intros (row & rows & (df & m & sc & (rdd & sch & (j & Ej & Er) & Es & Ed) & Ep & Et & Ec) & El).
    open_cells. rewrite Ej; cbn. rewrite Er; cbn. rewrite Es; cbn. rewrite Ed; cbn.
    rewrite Ep; cbn. rewrite Et; cbn. rewrite Ec; cbn. exact El.
Qed.

Lemma init_raise_fault (σ : process) (e : exn) :
  fst (init σ) = Raise e <-> init_fault σ e.
Proof.
  split.
  - open_cells. repeat step; intros E; try discriminate E; injection E as <-;
      eauto using init_fault.
  - destruct 1; open_cells;
      repeat match goal with
             | E : _ = _ |- _ =>
               rewrite E; clear E;
               cbn [fst snd files vars calls df2 pipeline azuremlutilities inputSchema]
             end; reflexivity.
Qed.

(** What [run] leaves behind: the variables and the files as they were, and
    some more calls in the log, each of them one [run] makes. *)
Lemma run_effect (σ : process) (inputString : string) :
  ∃ cs, snd (run inputString σ) = Process (files σ) (vars σ) (calls σ ++ cs)
        ∧ Forall scoring_call cs.
Proof.
  open_cells. repeat step.
  all: rewrite <- ?(assoc_L (++)); eexists; split; [reflexivity |].
  all: cbn; repeat constructor.
Qed.

(** What [init] leaves behind. *)
Lemma init_effect (σ : process) :
  files (snd (init σ)) = files σ
  ∧ df2 (vars (snd (init σ))) = df2 (vars σ)
  ∧ azuremlutilities (vars (snd (init σ))) = azuremlutilities (vars σ).
Proof. open_cells. repeat step; cbn; auto. Qed.

(** The outcome of a scoring call does not depend on the log. *)
Lemma run_log_irrelevant (fs : gmap string file) (g : globals) (cs cs' : list call)
    (inputString : string) :
  fst (run inputString (Process fs g cs)) = fst (run inputString (Process fs g cs')).
Proof. open_cells. repeat step; reflexivity. Qed.

(** The outcome of [init(); run(s)] is decided by the files and by whether
    the schema module is imported. *)
Lemma init_then_run_outcome (σ σ' : process) (inputString : string) :
  files σ = files σ' ->
  azuremlutilities (vars σ) = azuremlutilities (vars σ') ->
  fst (init_then_run inputString σ) = fst (init_then_run inputString σ').
Proof.
  destruct σ as [fs [d p b i] cs], σ' as [fs' [d' p' b' i'] cs'].
  cbn. intros <- <-. open_cells. repeat step; reflexivity.
Qed.

Lemma init_then_run_effect (σ : process) (inputString : string) :
  files (snd (init_then_run inputString σ)) = files σ
  ∧ azuremlutilities (vars (snd (init_then_run inputString σ)))
    = azuremlutilities (vars σ).
Proof.
  unfold init_then_run, bind.
  destruct (init_effect σ) as (Ef & _ & Ea).
  destruct (init σ) as [[[]|e] σ1]; cbn [fst snd] in *; [| auto].
  destruct (run_effect σ1 inputString) as (cs & -> & _). cbn [files vars]. auto.
Qed.

(** Scoring calls one after the other keep the variables and the files, and
    add no load to the log. *)
Lemma serve_effect (requests : list string) (σ : process) :
  vars (serve requests σ) = vars σ
  ∧ files (serve requests σ) = files σ
  ∧ filter is_load (calls (serve requests σ)) = filter is_load (calls σ).
Proof.
  revert σ. induction requests as [| inputString requests IH]; intros σ; [done |].
  cbn [serve]. destruct (IH (snd (run inputString σ))) as (-> & -> & ->).
  destruct (run_effect σ inputString) as (cs & -> & Hcs). cbn.
  repeat split. rewrite filter_app.
  replace (filter is_load cs) with (@nil call); [apply app_nil_r |].
  clear -Hcs. induction Hcs as [| c cs Hc _ IH]; [done |].
  destruct c; try done; rewrite filter_cons; cbn; exact IH.
Qed.

End Facts.

(** ** The scoring contract *)

Section Contract.
Context `{O : Objects} {H : Host}.

(** C1. When the input string goes through parsing, frame construction with
    the loaded schema, the loaded pipeline and collection, and at least one
    row comes out, [run] returns the ['label'] field of the first of these
    rows.  The rows after the first play no part: any call whose collected
    rows begin with the same row returns the same value, and more than one
    row is no error. *)
Theorem run_returns_first_label (σ : process) (inputString : string)
    (row : Row) (rows : list Row) (label : pyval) :
  scored σ inputString (row :: rows) ->
  Row_getitem row "label" = Ret label ->
  fst (run inputString σ) = Ret label
  ∧ ∀ σ' inputString' rows',
      scored σ' inputString' (row :: rows') ->
      fst (run inputString' σ') = Ret label.
Proof.
  intros Hs Hl. split; [| intros σ' inputString' rows' Hs'];
    apply run_ret_scored; eauto.
Qed.

(** C2. With the files unchanged, [init()] followed by [run(s)] has one
    outcome: it is the same from any two states of the process that hold the
    same files, it is the same when the pair is executed a second time, and
    a second [run(s)] after the first returns what the first returned. *)
Theorem init_run_deterministic (fs : gmap string file) (utilities : bool)
    (d d' : option DataFrame) (p p' : option PipelineModel)
    (i i' : option StructType) (cs cs' : list call) (inputString : string) :
  let σ := Process fs (Globals d p utilities i) cs in
  let σ' := Process fs (Globals d' p' utilities i') cs' in
  fst (init_then_run inputString σ) = fst (init_then_run inputString σ')
  ∧ fst (init_then_run inputString (snd (init_then_run inputString σ)))
    = fst (init_then_run inputString σ)
  ∧ fst (run inputString (snd (run inputString σ))) = fst (run inputString σ).
Proof.
  intros σ σ'. split; [| split].
  - by apply init_then_run_outcome.
  - destruct (init_then_run_effect σ inputString) as (Ef & Ea).
    by apply init_then_run_outcome.
  - destruct (run_effect σ inputString) as (cs1 & -> & _).
    apply run_log_irrelevant.
Qed.

(** C3. Every failure is passed on as it is.  [init] raises [e] exactly when
    the model load raises [e], or the schema module is not imported, or the
    schema load raises [e]; [run] raises [e] exactly when one of its steps
    does: [json.loads], [sc.parallelize], the frame construction, the
    transform, the collection, [[0]] on an empty result, the ['label']
    lookup, or the read of a variable [init] has not bound.  Nothing is
    caught or turned into a value: whatever [run] returns is the label of
    the first collected row. *)
Theorem faults_propagate (σ : process) (inputString : string) :
  (∀ e, fst (init σ) = Raise e <-> init_fault σ e)
  ∧ (∀ e, fst (run inputString σ) = Raise e <-> run_fault σ inputString e)
  ∧ (∀ v, fst (run inputString σ) = Ret v <->
          ∃ row rows, scored σ inputString (row :: rows)
                      ∧ Row_getitem row "label" = Ret v).
Proof.
  split; [| split].
  - intros e. apply init_raise_fault.
  - intros e. split; [apply run_raise_fault | apply run_fault_raise].
  - intros v. apply run_ret_scored.
Qed.

(** C7. [run] leaves the loaded state as it found it, whether it returns or
    raises: same variables, same files, and no load among the calls it makes.
    Over any sequence of scoring calls after a successful [init], the
    variables are those [init] bound and the loads in the log are the two
    [init] made, each once. *)
Theorem run_leaves_loaded_state (σ : process) (inputString : string)
    (requests : list string) :
  vars (snd (run inputString σ)) = vars σ
  ∧ files (snd (run inputString σ)) = files σ
  ∧ filter is_load (calls (snd (run inputString σ))) = filter is_load (calls σ)
  ∧ (fst (init σ) = Ret tt ->
     vars (serve requests (snd (init σ))) = vars (snd (init σ))
     ∧ filter is_load (calls (serve requests (snd (init σ))))
       = (filter is_load (calls σ)
          ++ [Load_model "housing.model";
              Load_schema "webserviceschema.json"])%list).
Proof.
  destruct (serve_effect [inputString] σ) as (Ev & Ef & Ec).
  destruct (serve_effect requests (snd (init σ))) as (Ev' & _ & Ec').
  split; [exact Ev | split; [exact Ef | split; [exact Ec |]]].
  intros Einit. split; [exact Ev' |].
  rewrite Ec'. clear -Einit. revert Einit. open_cells.
  repeat step; intros E; try discriminate E.
  rewrite !filter_app, <- (assoc_L (++)). reflexivity.
Qed.


(** C4, as the cells have it.  If [init] fails, [inputSchema] is what it was.
    If the failure is the model load, no variable has changed; if it comes
    after the model load, [pipeline] is already bound to the loaded model. *)
Theorem init_failure_state (σ : process) (e : exn) :
  fst (init σ) = Raise e ->
  inputSchema (vars (snd (init σ))) = inputSchema (vars σ)
  ∧ ((PipelineModel_load (files σ !! "housing.model") = Raise e
      ∧ vars (snd (init σ)) = vars σ)
     ∨ (∃ model, PipelineModel_load (files σ !! "housing.model") = Ret model
                 ∧ vars (snd (init σ)) = set_pipeline model (vars σ))).
Proof.
  open_cells. repeat step; intros E; try discriminate E; injection E as <-;
    (split; [reflexivity |]); eauto.
Qed.




(** C10, as the cells have it.  While [inputSchema] is unbound, which it is
    until an [init] has completed, [run] never returns: it raises
    [NameError] for [inputSchema] once [json.loads] and [sc.parallelize]
    have gone through, and otherwise what the first of these two to fail
    raised.  [run] binds nothing. *)
Theorem run_before_init_fails (σ : process) (inputString : string) :
  inputSchema (vars σ) = None ->
  (∃ e, fst (run inputString σ) = Raise e)
  ∧ (∀ inputRDD, parsed inputString inputRDD ->
                 fst (run inputString σ) = Raise (NameError "inputSchema"))
  ∧ (∀ e, json_loads inputString = Raise e -> fst (run inputString σ) = Raise e)
  ∧ (∀ input e, json_loads inputString = Ret input ->
                parallelize input = Raise e ->
                fst (run inputString σ) = Raise e)
  ∧ vars (snd (run inputString σ)) = vars σ.
Proof.
  intros Es. split; [| split; [| split; [| split]]].
  - open_cells. rewrite Es. repeat step; eauto.
  - intros inputRDD Hp. apply run_fault_raise. eauto using run_fault.
  - intros e Ej. apply run_fault_raise. eauto using run_fault.
  - intros input e Ej Er. apply run_fault_raise. eauto using run_fault.
  - destruct (run_effect σ inputString) as (cs & -> & _). reflexivity.
Qed.

End Contract.

(** ** The cells at work *)

Section CellsAtWork.
Context `{O : Objects} {H : Host}.

(** X1. [init] returns exactly when the model loads, [azuremlutilities] is
    bound and the schema loads; the variables are then the loaded model and
    the loaded schema, whatever [pipeline] and [inputSchema] were before.
    [init] writes no file. *)
Theorem init_binds_what_it_loaded (σ : process) :
  (fst (init σ) = Ret tt <->
   ∃ model schema,
     PipelineModel_load (files σ !! "housing.model") = Ret model
     ∧ azuremlutilities (vars σ) = true
     ∧ loadSchema (files σ !! "webserviceschema.json") = Ret schema
     ∧ vars (snd (init σ)) = Globals (df2 (vars σ)) (Some model) true (Some schema))
  ∧ files (snd (init σ)) = files σ.
Proof.
  split; [split |].
  - open_cells. repeat step; intros E; try discriminate E.
    eexists _, _. repeat split; congruence.
  - intros (model & schema & Em & Ea & Es & _). open_cells.
    rewrite Em; cbn. rewrite Ea; cbn. rewrite Es; cbn. reflexivity.
  - apply init_effect.
Qed.

(** X2. [init] a second time changes nothing but the log: same outcome, same
    variables, same files as after the first, also when it fails half way. *)
Theorem init_twice (σ : process) :
  fst (init (snd (init σ))) = fst (init σ)
  ∧ vars (snd (init (snd (init σ)))) = vars (snd (init σ))
  ∧ files (snd (init (snd (init σ)))) = files σ.
Proof.
  destruct σ as [fs [d p b i] cs]. open_cells.
  destruct (PipelineModel_load (fs !! "housing.model")) as [model |] eqn:Em;
    cbn; rewrite ?Em; cbn; [| done].
  destruct b; cbn; rewrite ?Em; cbn; [| done].
  destruct (loadSchema (fs !! "webserviceschema.json")) as [schema |] eqn:Es;
    cbn; rewrite ?Em; cbn; rewrite ?Es; done.
Qed.

(** X3. [init] reads the directory at its two paths only: two directories
    that agree there give the same outcome and the same variables. *)
Theorem init_reads_two_paths (fs fs' : gmap string file) (g : globals)
    (cs : list call) :
  fs !! "housing.model" = fs' !! "housing.model" ->
  fs !! "webserviceschema.json" = fs' !! "webserviceschema.json" ->
  fst (init (Process fs g cs)) = fst (init (Process fs' g cs))
  ∧ vars (snd (init (Process fs g cs))) = vars (snd (init (Process fs' g cs))).
Proof.
  intros Em Es. open_cells. rewrite <- Em.
  destruct (PipelineModel_load (fs !! "housing.model")); cbn; [| done].
  destruct (azuremlutilities g); cbn; [| done].
  rewrite <- Es. destruct (loadSchema (fs !! "webserviceschema.json")); done.
Qed.

(** X4. [run] reads the process through [pipeline] and [inputSchema] only:
    the files, the other variables and the log have no part in what it
    returns or raises, so a model file replaced after [init] is not seen. *)
Theorem run_reads_two_variables (fs fs' : gmap string file)
    (d d' : option DataFrame) (utilities utilities' : bool)
    (p : option PipelineModel) (i : option StructType) (cs cs' : list call)
    (inputString : string) :
  fst (run inputString (Process fs (Globals d p utilities i) cs))
  = fst (run inputString (Process fs' (Globals d' p utilities' i) cs')).
Proof. open_cells. repeat step; reflexivity. Qed.

(** X5. The save-model cell changes no variable and no file other than
    [housing.model].  It returns exactly when [pipeline] is bound and the
    library saved it, the file then holding what the library wrote; and
    ["Model saved"] is printed in that case only. *)
Theorem save_model_effect (σ : process) :
  vars (snd (save_model σ)) = vars σ
  ∧ (∀ path, path ≠ "housing.model" ->
             files (snd (save_model σ)) !! path = files σ !! path)
  ∧ (fst (save_model σ) = Ret tt <->
     ∃ model f, pipeline (vars σ) = Some model
                ∧ PipelineModel_save model = Ret f
                ∧ files (snd (save_model σ)) !! "housing.model" = Some f)
  ∧ (Print "Model saved" ∈ calls (snd (save_model σ)) <->
     Print "Model saved" ∈ calls σ ∨ fst (save_model σ) = Ret tt)
  ∧ (pipeline (vars σ) = None ->
     save_model σ = (Raise (NameError "pipeline"), σ)).
Proof.
  open_cells.
  destruct (pipeline (vars σ)) as [model |]; cbn;
    [destruct (PipelineModel_save model) as [f | e] eqn:Esave; cbn |].
  - split; [done |]. split; [intros path Hp; by rewrite lookup_insert_ne |].
    split; [| split; [| done]].
    + split; [intros _ | done]. eexists _, _. by rewrite lookup_insert_eq.
    + rewrite !elem_of_app, !list_elem_of_singleton. intuition congruence.
  - split; [done |]. split; [done |]. split; [| split; [| done]].
    + split; [done |]. intros (m & f & [= <-] & Ef & _). congruence.
    + rewrite elem_of_app, list_elem_of_singleton. intuition congruence.
  - split; [done |]. split; [done |]. split; [| split; [| done]].
    + split; [done |]. intros (m & f & [=] & _).
    + intuition congruence.
Qed.


(** X7. The two save cells write different paths: run in either order, both
    return or neither does, and when they return they leave the same files
    and the same variables. *)
Theorem save_cells_commute (σ : process) :
  (fst (save_model_first σ) = Ret tt <-> fst (save_schema_first σ) = Ret tt)
  ∧ (fst (save_model_first σ) = Ret tt ->
     files (snd (save_model_first σ)) = files (snd (save_schema_first σ))
     ∧ vars (snd (save_model_first σ)) = vars (snd (save_schema_first σ))).
Proof.
  unfold save_model_first, save_schema_first. open_cells.
  destruct (pipeline (vars σ)) as [model |] eqn:Ep; cbn;
    [destruct (PipelineModel_save model) as [f |] eqn:Esm; cbn |];
    (destruct (df2 (vars σ)) as [df |] eqn:Ed; cbn;
     [destruct (saveSchema df) as [g |] eqn:Ess; cbn |]);
    rewrite ?Esm; cbn; (split; [done |]); intros E; try discriminate E.
  split; [| by rewrite Ep]. apply insert_insert_ne. discriminate.
Qed.


(** X9. Scoring calls do not reach each other: after any sequence of
    requests, failed or not, [run] returns or raises on an input what it
    would have before them. *)
Theorem requests_are_isolated (requests : list string) (σ : process)
    (inputString : string) :
  fst (run inputString (serve requests σ)) = fst (run inputString σ).
Proof.
  destruct (serve_effect requests σ) as (Ev & Ef & _).
  destruct (serve requests σ) as [fs g cs], σ as [fs' g' cs'].
  cbn in Ev, Ef. subst. apply run_log_irrelevant.
Qed.

(** X10. A service whose [init] failed does not score: when [inputSchema]
    was unbound and [init] raises, every [run] that follows raises too. *)
Theorem failed_init_blocks_scoring (σ : process) (e : exn) (inputString : string) :
  inputSchema (vars σ) = None ->
  fst (init σ) = Raise e ->
  ∃ e', fst (run inputString (snd (init σ))) = Raise e'.
Proof.
  intros Ei Einit.
  assert (inputSchema (vars (snd (init σ))) = None) as Ei'.
  { revert Einit. open_cells. repeat step; intros E; try discriminate E; done. }
  clear Einit. revert Ei'. generalize (snd (init σ)). intros σ1 Ei'.
  open_cells. rewrite Ei'. repeat step; eauto.
Qed.

(** X11. What [run] does with the first collected row: it returns the value
    of the first field named ["label"], and it raises [ValueError("label")]
    exactly when the row has no such field, as for an input without the
    target column. *)
Theorem run_label_lookup (σ : process) (inputString : string) (row : Row)
    (rows : list Row) :
  scored σ inputString (row :: rows) ->
  (∀ v, fst (run inputString σ) = Ret v ->
        ∃ before after, row = (before ++ ("label", v) :: after)%list
                        ∧ "label" ∉ fields before)
  ∧ ("label" ∉ fields row <->
     fst (run inputString σ) = Raise (ValueError "label"))
  ∧ ("label" ∈ fields row <-> ∃ v, fst (run inputString σ) = Ret v).
Proof.
  intros Hs.
  assert (Hrun : fst (run inputString σ) = Row_getitem row "label").
  { destruct (Row_getitem row "label") as [v | e] eqn:El.
    - apply run_ret_scored. eauto.
    - apply run_fault_raise. eauto using run_fault. }
  rewrite Hrun. clear. unfold fields.
  induction row as [| [k w] row (IHv & IHn & IHy)]; cbn [Row_getitem].
  - split; [done |]. split; [| split; [intros Hin%elem_of_nil; done | intros [v [=]]]].
    split; [done | intros _; apply not_elem_of_nil].
  - destruct (String.eqb k "label") eqn:Ek.
    + apply String.eqb_eq in Ek as ->. split; [| split].
      * intros v [= ->]. exists [], row. split; [done | apply not_elem_of_nil].
      * cbn. split; [intros Hn; contradict Hn; apply list_elem_of_here | done].
      * cbn. split; [eauto | intros _; apply list_elem_of_here].
    + apply String.eqb_neq in Ek. split; [| split].
      * intros v Hv. destruct (IHv v Hv) as (before & after & -> & Hb).
        exists ((k, w) :: before), after. split; [done |].
        cbn. rewrite not_elem_of_cons. done.
      * cbn. rewrite not_elem_of_cons. rewrite <- IHn. intuition congruence.
      * cbn. rewrite elem_of_cons. rewrite <- IHy. intuition congruence.
Qed.

(** X12. [init] reads [azuremlutilities] but does not import it.  In a
    process where no cell has imported it, [init] never returns, and when the
    model loads the failure is the [NameError] for that name: [pipeline] is
    bound by then, the schema has not been asked for, and [inputSchema] is
    as it was. *)
Theorem init_needs_imported_module (σ : process) :
  azuremlutilities (vars σ) = false ->
  (∃ e, fst (init σ) = Raise e)
  ∧ inputSchema (vars (snd (init σ))) = inputSchema (vars σ)
  ∧ calls (snd (init σ)) = (calls σ ++ [Load_model "housing.model"])%list
  ∧ ∀ model, PipelineModel_load (files σ !! "housing.model") = Ret model ->
             fst (init σ) = Raise (NameError "azuremlutilities")
             ∧ pipeline (vars (snd (init σ))) = Some model.
Proof.
  intros Ea. open_cells. rewrite Ea.
  destruct (PipelineModel_load (files σ !! "housing.model")); cbn.
  - split; [eauto |]. split; [done |]. split; [done |]. by intros model [= ->].
  - split; [eauto |]. split; [done |]. split; [done |]. by intros model [=].
Qed.

End CellsAtWork.

(** ** The cells on the reference host *)

Section OnTheReferenceHost.
Import RefHost Runs.

(** Discharge a stage by running the reference engine. *)
Ltac run_engine :=
  unfold scored, framed, parsed;
  repeat first [ reflexivity | split | eexists ].

(** The test cell on the deployed service, and what it leaves in the log. *)
Example test_cell_value :
  fst (init_then_run sample_input deployed) = Ret (PFloat 24).
Proof. reflexivity. Qed.

Example test_cell_log :
  calls (snd (init_then_run sample_input deployed))
  = [Load_model "housing.model"; Load_schema "webserviceschema.json";
     Json_loads sample_input; Parallelize sample_parsed;
     CreateDataFrame None false; Transform; Collect].
Proof. reflexivity. Qed.

Example init_binds_both :
  vars (snd (init deployed))
  = Globals None (Some housing_model) true (Some housing_schema).
Proof. reflexivity. Qed.

(** Inputs [run] has no answer for. *)
Example run_empty_array : fst (run "[]" serving) = Raise IndexError.
Proof. reflexivity. Qed.

Example run_not_an_array :
  fst (run "7" serving) = Raise (TypeError "object is not iterable").
Proof. reflexivity. Qed.

Example run_malformed :
  fst (run "[[1.0," serving) = Raise (ValueError "No JSON object could be decoded").
Proof. reflexivity. Qed.

Example run_row_without_target :
  fst (run "[[1.0,2.0]]" serving) = Raise (ValueError "label").
Proof. reflexivity. Qed.

(** With verification on, the reference engine takes the sample row against
    the housing schema and refuses the row that is one value too wide; with
    verification off, as [run] asks, it takes the wide row too. *)
Example verification_on_and_off :
  (∃ df, rcreateDataFrame [PList sample_cells] housing_schema None true = Ret df)
  ∧ (∃ e, rcreateDataFrame [PList wide_cells] housing_schema None true = Raise e)
  ∧ (∃ df, rcreateDataFrame [PList wide_cells] housing_schema None false = Ret df).
Proof. repeat split; eexists; reflexivity. Qed.

Lemma two_rows_scored : scored serving two_rows two_rows_collected.
Proof. run_engine. Qed.



Lemma run_returns_first_label_witness :
  scored serving two_rows two_rows_collected
  ∧ length two_rows_collected = 2
  ∧ fst (run two_rows serving) = Ret (PFloat 24).
Proof.
  split; [exact two_rows_scored |]. split; [reflexivity |].
  exact (proj1 (run_returns_first_label serving two_rows _ _ _
                  two_rows_scored eq_refl)).
Defined.

Lemma init_not_atomic : ¬ init_is_atomic.
Proof.
  intros Hatomic.
  destruct (Hatomic schema_missing
              (LibraryError "IOError" "No such file or directory") eq_refl)
    as [Hp _].
  specialize (Hp eq_refl). discriminate Hp.
Qed.

Lemma init_failure_state_witness :
  fst (init schema_missing) = Raise (LibraryError "IOError" "No such file or directory")
  ∧ inputSchema (vars (snd (init schema_missing))) = None.
Proof.
  split; [reflexivity |].
  exact (proj1 (init_failure_state schema_missing _ eq_refl)).
Defined.





Lemma run_before_init_other_fault : ¬ run_before_init_is_NameError.
Proof.
  intros Hname.
  destruct (Hname fresh "not json" eq_refl eq_refl) as [name He].
  vm_compute in He. discriminate He.
Qed.

Lemma run_before_init_fails_witness :
  inputSchema (vars fresh) = None
  ∧ fst (run sample_input fresh) = Raise (NameError "inputSchema").
Proof.
  split; [reflexivity |].
  destruct (run_before_init_fails fresh sample_input eq_refl) as (_ & Hn & _).
  eapply Hn. unfold parsed. eexists. split; reflexivity.
Defined.

End OnTheReferenceHost.

(** ** The other cells on the reference host *)

Section MoreOnTheReferenceHost.
Import RefHost Runs.

Lemma init_reads_two_paths_witness :
  files deployed_with_script !! "testing.py" ≠ files deployed !! "testing.py"
  ∧ fst (init deployed_with_script) = fst (init deployed)
  ∧ vars (snd (init deployed_with_script)) = vars (snd (init deployed)).
Proof.
  split; [vm_compute; discriminate |].
  exact (init_reads_two_paths (files deployed_with_script) (files deployed)
           (vars deployed) [] eq_refl eq_refl).
Defined.


Lemma failed_init_blocks_scoring_witness :
  inputSchema (vars schema_missing) = None
  ∧ ∃ e', fst (run sample_input (snd (init schema_missing))) = Raise e'.
Proof.
  split; [reflexivity |].
  exact (failed_init_blocks_scoring schema_missing
           (LibraryError "IOError" "No such file or directory") sample_input
           eq_refl eq_refl).
Defined.

Lemma run_label_lookup_witness :
  scored serving two_rows two_rows_collected
  ∧ ∃ v, fst (run two_rows serving) = Ret v.
Proof.
  split; [exact two_rows_scored |].
  destruct (run_label_lookup serving two_rows _ _ two_rows_scored) as (_ & _ & Hy).
  apply Hy. unfold fields. cbn [map fst].
  repeat first [ apply list_elem_of_here | apply list_elem_of_further ].
Defined.

Lemma init_needs_imported_module_witness :
  azuremlutilities (vars script_only) = false
  ∧ fst (init script_only) = Raise (NameError "azuremlutilities")
  ∧ pipeline (vars (snd (init script_only))) = Some housing_model.
Proof.
  split; [reflexivity |].
  destruct (init_needs_imported_module script_only eq_refl) as (_ & _ & _ & Hm).
  exact (Hm housing_model eq_refl).
Defined.

(** The save cells in the other order, and a row without the target. *)
Example save_cells_commute_trained :
  files (snd (save_model_first trained)) = files (snd (save_schema_first trained)).
Proof. vm_compute. reflexivity. Qed.

Example label_missing_in_short_row :
  fst (run "[[0.00632,18.0]]" serving) = Raise (ValueError "label").
Proof. reflexivity. Qed.

End MoreOnTheReferenceHost.
